(** * smdash: the sampling-and-rolling-history engine of [main.py]

    A shallow embedding of the dashboard's sampling function
    [get_system_stats], of the module-level [history] (four [deque]s of
    [maxlen=20]), of the two Dash callbacks [update_combined_graph] and
    [update_separate_graphs], and of the start-up [mode] selector.

    Percentages are the floats psutil hands back; they are only stored and
    copied, never computed with, so they are carried as rationals.  The
    provider (psutil) and the clock are the environment of a tick: what each
    of the three reads does on that tick, and the string [strftime]
    produces. *)

From Stdlib Require Import QArith Lia List.
From stdpp Require Import base gmap strings list.

Import ListNotations.
Local Open Scope string_scope.
Local Open Scope list_scope.
Local Open Scope nat_scope.
Local Abbreviation length := List.length.

(** ** Exceptions and the callback monad *)

(** The exceptions the modelled code can meet: a psutil read that raises
    (any class below [Exception], carried with its message) and the
    [KeyError] of a dict subscript. *)
Inductive exn : Type :=
  | ProviderError (msg : string)
  | KeyError (key : string).

Inductive result (A : Type) : Type :=
  | Ok (a : A)
  | Raise (e : exn).
Arguments Ok {A} a.
Arguments Raise {A} e.

(** One line written through [logging]. *)
Inductive LogRecord : Type :=
  | LogError (e : exn)                    (* "Error fetching system stats: {e}" *)
  | LogNoData                             (* "No data fetched" *)
  | LogFetched (data : gmap string Q).    (* "Fetched data: {data}" *)

(** [history]: the dict of four deques, keys 'ram', 'cpu', 'disk', 'time'. *)
Record History : Type := mkHistory {
  ram : list Q;
  cpu : list Q;
  disk : list Q;
  time : list string
}.

(** The process-wide state a callback can touch. *)
Record State : Type := mkState {
  history : History;
  log : list LogRecord
}.

(** A computation that reads and writes the state and may raise. *)
Definition M (A : Type) : Type := State -> result A * State.

Definition ret {A} (a : A) : M A := fun st => (Ok a, st).

Definition bind {A B} (m : M A) (k : A -> M B) : M B :=
  fun st =>
    match m st with
    | (Ok a, st') => k a st'
    | (Raise e, st') => (Raise e, st')
    end.

Definition raise {A} (e : exn) : M A := fun st => (Raise e, st).

(** [try: body except Exception as e: handler e]. *)
Definition try_except {A} (body : M A) (handler : exn -> M A) : M A :=
  fun st =>
    match body st with
    | (Ok a, st') => (Ok a, st')
    | (Raise e, st') => handler e st'
    end.

Notation "x <- m ;; k" := (bind m (fun x => k))
  (at level 100, m at next level, right associativity).
Notation "m ;;; k" := (bind m (fun _ => k))
  (at level 100, right associativity).

Definition logging (r : LogRecord) : M unit :=
  fun st => (Ok tt, mkState (history st) (log st ++ [r])).

(** ** deque(maxlen=20) *)

Definition maxlen : nat := 20.

(** [deque.append]: the element goes in on the right; a deque that is then
    longer than [maxlen] loses its leftmost element. *)
Definition deque_append {A} (x : A) (d : list A) : list A :=
  let d' := d ++ [x] in
  if maxlen <? length d' then tl d' else d'.

Definition history0 : History := mkHistory [] [] [] [].
Definition state0 : State := mkState history0 [].

Definition append_ram (v : Q) : M unit :=
  fun st => let h := history st in
    (Ok tt, mkState (mkHistory (deque_append v (ram h)) (cpu h) (disk h) (time h)) (log st)).
Definition append_cpu (v : Q) : M unit :=
  fun st => let h := history st in
    (Ok tt, mkState (mkHistory (ram h) (deque_append v (cpu h)) (disk h) (time h)) (log st)).
Definition append_disk (v : Q) : M unit :=
  fun st => let h := history st in
    (Ok tt, mkState (mkHistory (ram h) (cpu h) (deque_append v (disk h)) (time h)) (log st)).
Definition append_time (t : string) : M unit :=
  fun st => let h := history st in
    (Ok tt, mkState (mkHistory (ram h) (cpu h) (disk h) (deque_append t (time h))) (log st)).

Definition get_history : M History := fun st => (Ok (history st), st).

(** ** The provider and [get_system_stats] *)

(** What the three psutil reads do on one tick. *)
Record Provider : Type := mkProvider {
  virtual_memory_percent : result Q;    (* psutil.virtual_memory().percent *)
  cpu_percent : result Q;               (* psutil.cpu_percent(interval=1) *)
  disk_usage_percent : result Q         (* psutil.disk_usage('/').percent *)
}.

Definition call {A} (r : result A) : M A := fun st => (r, st).

Definition RAM_KEY : string := "RAM Usage (%)".
Definition CPU_KEY : string := "CPU Usage (%)".
Definition DISK_KEY : string := "Disk Usage (%)".

Definition get_system_stats (p : Provider) : M (gmap string Q) :=
  try_except
    (ram <- call (virtual_memory_percent p);;
     cpu <- call (cpu_percent p);;
     disk <- call (disk_usage_percent p);;
     ret (<[RAM_KEY := ram]> (<[CPU_KEY := cpu]> (<[DISK_KEY := disk]> ∅))))
    (fun e =>
       logging (LogError e);;;
       ret ∅).

(** [data[key]]: a missing key raises [KeyError]. *)
Definition subscript (data : gmap string Q) (key : string) : M Q :=
  match data !! key with
  | Some v => ret v
  | None => raise (KeyError key)
  end.

(** [not data] for a dict: true exactly when it has no entry. *)
Definition dict_not (data : gmap string Q) : bool := Nat.eqb (size data) 0.

(** ** Figures *)

Record Scatter : Type := mkScatter {
  sc_x : list string;
  sc_y : list Q;
  sc_mode : string;
  sc_name : string
}.

Record Layout : Type := mkLayout {
  title : string;
  xaxis_title : string;
  xaxis_tickformat : string;
  yaxis_title : string
}.

Record Figure : Type := mkFigure {
  data : list Scatter;
  layout : Layout
}.

(** What a callback hands to one [dcc.Graph]: the empty dict or a figure. *)
Inductive Payload : Type :=
  | EmptyDict
  | Fig (f : Figure).

Definition go_Layout (t : string) : Layout :=
  mkLayout t "Time" "%H:%M:%S" "Percentage".

Definition combined_figure (h : History) : Figure :=
  mkFigure
    [ mkScatter (time h) (ram h) "lines+markers" RAM_KEY;
      mkScatter (time h) (cpu h) "lines+markers" CPU_KEY;
      mkScatter (time h) (disk h) "lines+markers" DISK_KEY ]
    (go_Layout "RAM, CPU, and Disk Usage Over Time").

Definition ram_figure (h : History) : Figure :=
  mkFigure [ mkScatter (time h) (ram h) "lines+markers" RAM_KEY ]
           (go_Layout "RAM Usage Over Time").

Definition cpu_figure (h : History) : Figure :=
  mkFigure [ mkScatter (time h) (cpu h) "lines+markers" CPU_KEY ]
           (go_Layout "CPU Usage Over Time").

Definition disk_figure (h : History) : Figure :=
  mkFigure [ mkScatter (time h) (disk h) "lines+markers" DISK_KEY ]
           (go_Layout "Disk Usage Over Time").

(** ** The callbacks *)

(** One firing of the interval: the provider's behaviour, the clock's
    [strftime('%H:%M:%S')] and Dash's [n_intervals]. *)
Record Tick : Type := mkTick {
  provider : Provider;
  now : string;
  n_intervals : nat
}.

Definition update_combined_graph (tk : Tick) : M Payload :=
  data <- get_system_stats (provider tk);;
  if dict_not data then
    logging LogNoData;;;
    ret EmptyDict
  else
    logging (LogFetched data);;;
    let current_time := now tk in
    v <- subscript data RAM_KEY;; append_ram v;;;
    v <- subscript data CPU_KEY;; append_cpu v;;;
    v <- subscript data DISK_KEY;; append_disk v;;;
    append_time current_time;;;
    h <- get_history;;
    ret (Fig (combined_figure h)).

Definition update_separate_graphs (tk : Tick) : M (Payload * Payload * Payload) :=
  data <- get_system_stats (provider tk);;
  if dict_not data then
    logging LogNoData;;;
    ret (EmptyDict, EmptyDict, EmptyDict)
  else
    logging (LogFetched data);;;
    let current_time := now tk in
    v <- subscript data RAM_KEY;; append_ram v;;;
    v <- subscript data CPU_KEY;; append_cpu v;;;
    v <- subscript data DISK_KEY;; append_disk v;;;
    append_time current_time;;;
    h <- get_history;;
    ret (Fig (ram_figure h), Fig (cpu_figure h), Fig (disk_figure h)).

(** ** Start-up mode *)

(** [sys.argv[1] if len(sys.argv) > 1 else 'multiple'] *)
Definition mode (argv : list string) : string :=
  if 1 <? length argv then nth 1 argv "multiple" else "multiple".

Inductive Layout_mode : Type := Combined | Separate.

(** The [if mode == 'one': ... else: ...] that installs one of the two
    layouts and its callback. *)
Definition app_layout (argv : list string) : Layout_mode :=
  if String.eqb (mode argv) "one" then Combined else Separate.

(** What the installed callback returns. *)
Inductive Rendered : Type :=
  | OneGraph (p : Payload)
  | ThreeGraphs (p : Payload * Payload * Payload).

Definition callback (m : Layout_mode) (tk : Tick) : M Rendered :=
  match m with
  | Combined => p <- update_combined_graph tk;; ret (OneGraph p)
  | Separate => p <- update_separate_graphs tk;; ret (ThreeGraphs p)
  end.

(** The state after one firing; an exception leaving the callback is
    answered by Dash with an error response and the process goes on. *)
Definition tick (m : Layout_mode) (st : State) (tk : Tick) : State :=
  snd (callback m tk st).

(** A run: the ticks in the order the interval fires them. *)
Definition run (m : Layout_mode) (tks : list Tick) (st : State) : State :=
  fold_left (tick m) tks st.

(** ** Samples *)

Record MetricSample : Type := mkSample {
  ram_pct : Q;
  cpu_pct : Q;
  disk_pct : Q;
  timestamp : string
}.

(** The sample a tick records: there is one exactly when all three reads
    return. *)
Definition sample_of (tk : Tick) : option MetricSample :=
  match virtual_memory_percent (provider tk),
        cpu_percent (provider tk),
        disk_usage_percent (provider tk) with
  | Ok r, Ok c, Ok d => Some (mkSample r c d (now tk))
  | _, _, _ => None
  end.

(** The samples of a run, oldest first. *)
Definition recorded (tks : list Tick) : list MetricSample :=
  omap sample_of tks.

(** The last [n] elements of a list, in their order. *)
Definition lastn {A} (n : nat) (l : list A) : list A :=
  skipn (length l - n) l.

Definition in_range (v : Q) : Prop := (0 <= v)%Q /\ (v <= 100)%Q.

Definition provider_in_range (p : Provider) : Prop :=
  (forall v, virtual_memory_percent p = Ok v -> in_range v) /\
  (forall v, cpu_percent p = Ok v -> in_range v) /\
  (forall v, disk_usage_percent p = Ok v -> in_range v).

Definition history_in_range (h : History) : Prop :=
  Forall in_range (ram h) /\ Forall in_range (cpu h) /\ Forall in_range (disk h).

(** A tick that succeeds with the given readings. *)
Definition ok_tick (r c d : Q) (t : string) : Tick :=
  mkTick (mkProvider (Ok r) (Ok c) (Ok d)) t 0.

(** A tick on which the CPU read raises. *)
Definition failing_tick (t : string) : Tick :=
  mkTick (mkProvider (Ok 10%Q) (Raise (ProviderError "cpu")) (Ok 50%Q)) t 0.

(** [record(sample)] of the store: the four appends of a successful tick. *)
Definition record (s : MetricSample) (h : History) : History :=
  mkHistory (deque_append (ram_pct s) (ram h))
            (deque_append (cpu_pct s) (cpu h))
            (deque_append (disk_pct s) (disk h))
            (deque_append (timestamp s) (time h)).

(** The dict a successful [get_system_stats] returns. *)
Definition stats_dict (s : MetricSample) : gmap string Q :=
  <[RAM_KEY := ram_pct s]> (<[CPU_KEY := cpu_pct s]> (<[DISK_KEY := disk_pct s]> ∅)).

(** The exception that ends the [try] body: that of the first read that
    raises. *)
Definition first_error (p : Provider) : option exn :=
  match virtual_memory_percent p with
  | Raise e => Some e
  | Ok _ =>
    match cpu_percent p with
    | Raise e => Some e
    | Ok _ =>
      match disk_usage_percent p with
      | Raise e => Some e
      | Ok _ => None
      end
    end
  end.

(** A tick built to record a given sample. *)
Definition tick_of (s : MetricSample) : Tick :=
  ok_tick (ram_pct s) (cpu_pct s) (disk_pct s) (timestamp s).

(** A successful tick whose RAM reading is [i]. *)
Definition numbered_tick (i : nat) : Tick :=
  ok_tick (inject_Z (Z.of_nat i)) 5 50 "12:00:00".

(** The sample with RAM reading [i] and the other fields picked by [c], [d]
    and [t]. *)
Definition sample_numbered (c d : nat -> Q) (t : nat -> string) (i : nat)
  : MetricSample :=
  mkSample (inject_Z (Z.of_nat i)) (c i) (d i) (t i).

(** The four sequences have one length, at most 20. *)
Definition aligned (h : History) : Prop :=
  length (ram h) = length (cpu h) /\
  length (cpu h) = length (disk h) /\
  length (disk h) = length (time h) /\
  length (time h) <= 20.

(** What a successful tick does to the store: every sequence loses the same
    number [k] of oldest elements, none or one, and gains its component of
    the sample at the tail. *)
Definition appended_one (s : MetricSample) (h h' : History) : Prop :=
  exists k, k <= 1 /\
    ram h' = skipn k (ram h) ++ [ram_pct s] /\
    cpu h' = skipn k (cpu h) ++ [cpu_pct s] /\
    disk h' = skipn k (disk h) ++ [disk_pct s] /\
    time h' = skipn k (time h) ++ [timestamp s].

(** What one tick does to the store, read off the callbacks: the four
    appends when all reads return, nothing otherwise. *)
Definition history_step (h : History) (tk : Tick) : History :=
  match sample_of tk with
  | Some s => record s h
  | None => h
  end.

(** Whether a tick records a sample. *)
Definition succeeded (tk : Tick) : bool :=
  match sample_of tk with
  | Some _ => true
  | None => false
  end.

(** The series of a payload, and of all the payloads a callback returns. *)
Definition payload_series (p : Payload) : list Scatter :=
  match p with
  | EmptyDict => []
  | Fig f => data f
  end.

Definition all_series (r : Rendered) : list Scatter :=
  match r with
  | OneGraph p => payload_series p
  | ThreeGraphs (p1, p2, p3) =>
      payload_series p1 ++ payload_series p2 ++ payload_series p3
  end.

(** A series that plotly can draw: as many x as y values, at most 20. *)
Definition well_formed_series (sc : Scatter) : Prop :=
  length (sc_x sc) = length (sc_y sc) /\ length (sc_x sc) <= 20.

(** ** The layouts and the callback wiring *)

(** The children of the [html.Div] of a layout. *)
Inductive Component : Type :=
  | H1 (children : string)
  | Graph (id : string)
  | Interval (id : string) (interval : nat) (n_intervals0 : nat).

Definition layout_children (m : Layout_mode) : list Component :=
  match m with
  | Combined =>
      [ H1 "System Monitoring Dashboard (Combined Graph)";
        Graph "combined-graph";
        Interval "interval-component" (5 * 1000) 0 ]
  | Separate =>
      [ H1 "System Monitoring Dashboard (Separate Graphs)";
        Graph "ram-usage-graph";
        Graph "cpu-usage-graph";
        Graph "disk-usage-graph";
        Interval "interval-component" (5 * 1000) 0 ]
  end.

(** [Output(id, property)] and [Input(id, property)]. *)
Record Dependency : Type := mkDependency {
  component_id : string;
  component_property : string
}.

(** The outputs and inputs of the [@app.callback] decorator of each mode. *)
Definition callback_outputs (m : Layout_mode) : list Dependency :=
  match m with
  | Combined => [ mkDependency "combined-graph" "figure" ]
  | Separate =>
      [ mkDependency "ram-usage-graph" "figure";
        mkDependency "cpu-usage-graph" "figure";
        mkDependency "disk-usage-graph" "figure" ]
  end.

Definition callback_inputs (m : Layout_mode) : list Dependency :=
  match m with
  | Combined => [ mkDependency "interval-component" "n_intervals" ]
  | Separate => [ mkDependency "interval-component" "n_intervals" ]
  end.

(** The values a callback returns, in the order it returns them. *)
Definition returned_values (r : Rendered) : list Payload :=
  match r with
  | OneGraph p => [p]
  | ThreeGraphs (p1, p2, p3) => [p1; p2; p3]
  end.

(** Dash hands the k-th returned value to the k-th declared output. *)
Definition graph_updates (m : Layout_mode) (r : Rendered)
  : list (string * Payload) :=
  zip (map component_id (callback_outputs m)) (returned_values r).

Definition graph_ids (cs : list Component) : list string :=
  flat_map (fun c => match c with Graph i => [i] | _ => [] end) cs.

Definition component_ids (cs : list Component) : list string :=
  flat_map (fun c => match c with
                     | H1 _ => []
                     | Graph i => [i]
                     | Interval i _ _ => [i]
                     end) cs.

(** ** The callbacks, cut between the appends *)

(** [update_combined_graph] from its first line up to and including
    [history['ram'].append(...)]: the fetched dict when that append was
    reached, nothing on the early return. *)
Definition update_combined_graph_through_ram (tk : Tick)
  : M (option (gmap string Q)) :=
  data <- get_system_stats (provider tk);;
  if dict_not data then
    logging LogNoData;;;
    ret None
  else
    logging (LogFetched data);;;
    v <- subscript data RAM_KEY;; append_ram v;;;
    ret (Some data).

(** The rest of [update_combined_graph] after that append: the three other
    appends and the figure; with the timestamp the first part took. *)
Definition update_combined_graph_after_ram (tk : Tick)
    (fetched : option (gmap string Q)) : M Payload :=
  match fetched with
  | None => ret EmptyDict
  | Some data =>
    let current_time := now tk in
    v <- subscript data CPU_KEY;; append_cpu v;;;
    v <- subscript data DISK_KEY;; append_disk v;;;
    append_time current_time;;;
    h <- get_history;;
    ret (Fig (combined_figure h))
  end.

(** The same cut of [update_separate_graphs]. *)
Definition update_separate_graphs_through_ram (tk : Tick)
  : M (option (gmap string Q)) :=
  data <- get_system_stats (provider tk);;
  if dict_not data then
    logging LogNoData;;;
    ret None
  else
    logging (LogFetched data);;;
    v <- subscript data RAM_KEY;; append_ram v;;;
    ret (Some data).

Definition update_separate_graphs_after_ram (tk : Tick)
    (fetched : option (gmap string Q)) : M (Payload * Payload * Payload) :=
  match fetched with
  | None => ret (EmptyDict, EmptyDict, EmptyDict)
  | Some data =>
    let current_time := now tk in
    v <- subscript data CPU_KEY;; append_cpu v;;;
    v <- subscript data DISK_KEY;; append_disk v;;;
    append_time current_time;;;
    h <- get_history;;
    ret (Fig (ram_figure h), Fig (cpu_figure h), Fig (disk_figure h))
  end.

(** * Properties *)

(** ** What the sampler and the callbacks compute *)

Lemma stats_dict_lookup (s : MetricSample) :
  stats_dict s !! RAM_KEY = Some (ram_pct s) /\
  stats_dict s !! CPU_KEY = Some (cpu_pct s) /\
  stats_dict s !! DISK_KEY = Some (disk_pct s).
Proof.
  unfold stats_dict.
  split; [|split].
  - apply lookup_insert_eq.
  - rewrite lookup_insert_ne by discriminate. apply lookup_insert_eq.
  - rewrite !lookup_insert_ne by discriminate. apply lookup_insert_eq.
Qed.

Lemma stats_dict_dom (s : MetricSample) :
  dom (stats_dict s) = ({[RAM_KEY; CPU_KEY; DISK_KEY]} : gset string).
Proof.
  unfold stats_dict. rewrite !dom_insert_L, dom_empty_L. set_solver.
Qed.

Lemma stats_dict_truthy (s : MetricSample) : dict_not (stats_dict s) = false.
Proof.
  unfold dict_not, stats_dict.
  rewrite !map_size_insert_None; [reflexivity|..];
    rewrite ?lookup_insert_ne by discriminate; apply lookup_empty.
Qed.

Lemma dict_not_empty : dict_not ∅ = true.
Proof. unfold dict_not. rewrite map_size_empty. reflexivity. Qed.

Lemma get_system_stats_ok (tk : Tick) (s : MetricSample) (st : State) :
  sample_of tk = Some s ->
  get_system_stats (provider tk) st = (Ok (stats_dict s), st).
Proof.
  unfold sample_of, get_system_stats, try_except, bind, call, ret.
  destruct (virtual_memory_percent (provider tk)); [|discriminate].
  destruct (cpu_percent (provider tk)); [|discriminate].
  destruct (disk_usage_percent (provider tk)); [|discriminate].
  intros [= <-]. reflexivity.
Qed.

Lemma get_system_stats_fail (tk : Tick) (st : State) :
  sample_of tk = None ->
  exists e, first_error (provider tk) = Some e /\
    get_system_stats (provider tk) st
    = (Ok ∅, mkState (history st) (log st ++ [LogError e])).
Proof.
  unfold sample_of, first_error, get_system_stats, try_except, bind, call, ret, logging.
  destruct (virtual_memory_percent (provider tk)) as [r|e]; [|eauto].
  destruct (cpu_percent (provider tk)) as [c|e]; [|eauto].
  destruct (disk_usage_percent (provider tk)) as [d|e]; [discriminate|eauto].
Qed.

Lemma sample_of_timestamp (tk : Tick) (s : MetricSample) :
  sample_of tk = Some s -> timestamp s = now tk.
Proof.
  unfold sample_of.
  destruct (virtual_memory_percent (provider tk)); [|discriminate].
  destruct (cpu_percent (provider tk)); [|discriminate].
  destruct (disk_usage_percent (provider tk)); [|discriminate].
  intros [= <-]. reflexivity.
Qed.

Ltac run_monad :=
  unfold subscript, bind, ret, logging, append_ram, append_cpu, append_disk,
    append_time, get_history; simpl.

Lemma update_combined_graph_ok (tk : Tick) (s : MetricSample) (st : State) :
  sample_of tk = Some s ->
  update_combined_graph tk st
  = (Ok (Fig (combined_figure (record s (history st)))),
     mkState (record s (history st)) (log st ++ [LogFetched (stats_dict s)])).
Proof.
  intros Hs. unfold update_combined_graph, bind at 1.
  rewrite (get_system_stats_ok tk s st Hs), stats_dict_truthy.
  destruct (stats_dict_lookup s) as (Hr & Hc & Hd).
  rewrite <- (sample_of_timestamp tk s Hs).
  run_monad. rewrite Hr. simpl. rewrite Hc. simpl. rewrite Hd. reflexivity.
Qed.

Lemma update_separate_graphs_ok (tk : Tick) (s : MetricSample) (st : State) :
  sample_of tk = Some s ->
  update_separate_graphs tk st
  = (Ok (Fig (ram_figure (record s (history st))),
         Fig (cpu_figure (record s (history st))),
         Fig (disk_figure (record s (history st)))),
     mkState (record s (history st)) (log st ++ [LogFetched (stats_dict s)])).
Proof.
  intros Hs. unfold update_separate_graphs, bind at 1.
  rewrite (get_system_stats_ok tk s st Hs), stats_dict_truthy.
  destruct (stats_dict_lookup s) as (Hr & Hc & Hd).
  rewrite <- (sample_of_timestamp tk s Hs).
  run_monad. rewrite Hr. simpl. rewrite Hc. simpl. rewrite Hd. reflexivity.
Qed.

Lemma update_combined_graph_fail (tk : Tick) (st : State) :
  sample_of tk = None ->
  exists e, first_error (provider tk) = Some e /\
    update_combined_graph tk st
    = (Ok EmptyDict, mkState (history st) (log st ++ [LogError e; LogNoData])).
Proof.
  intros Hs. destruct (get_system_stats_fail tk st Hs) as (e & He & Hg).
  exists e. split; [exact He|].
  unfold update_combined_graph, bind at 1. rewrite Hg.
  rewrite dict_not_empty. run_monad. rewrite <- app_assoc. reflexivity.
Qed.

Lemma update_separate_graphs_fail (tk : Tick) (st : State) :
  sample_of tk = None ->
  exists e, first_error (provider tk) = Some e /\
    update_separate_graphs tk st
    = (Ok (EmptyDict, EmptyDict, EmptyDict),
       mkState (history st) (log st ++ [LogError e; LogNoData])).
Proof.
  intros Hs. destruct (get_system_stats_fail tk st Hs) as (e & He & Hg).
  exists e. split; [exact He|].
  unfold update_separate_graphs, bind at 1. rewrite Hg.
  rewrite dict_not_empty. run_monad. rewrite <- app_assoc. reflexivity.
Qed.

(** ** The bounded deque *)

Section Deque.
Context {A : Type}.
Implicit Types (x : A) (d l : list A).

Lemma deque_append_room x d :
  length d < maxlen -> deque_append x d = d ++ [x].
Proof.
  intros Hlen. unfold deque_append.
  rewrite length_app. simpl.
  destruct (Nat.ltb_spec maxlen (length d + 1)); [lia | reflexivity].
Qed.

Lemma deque_append_full x d :
  maxlen <= length d -> deque_append x d = tl d ++ [x].
Proof.
  intros Hlen. unfold deque_append.
  rewrite length_app. simpl.
  destruct (Nat.ltb_spec maxlen (length d + 1)); [|lia].
  destruct d; [unfold maxlen in Hlen; simpl in Hlen; lia | reflexivity].
Qed.

Lemma deque_append_length x d :
  length d <= maxlen ->
  length (deque_append x d) = Nat.min maxlen (S (length d)).
Proof.
  intros Hlen. destruct (Nat.eq_dec (length d) maxlen) as [Heq|Hne].
  - rewrite deque_append_full by lia.
    rewrite length_app.
    destruct d; [unfold maxlen in Heq; discriminate|].
    cbn [List.length tl] in *. lia.
  - rewrite deque_append_room by lia.
    rewrite length_app. cbn [List.length]. lia.
Qed.

Lemma length_lastn n l : length (lastn n l) = Nat.min n (length l).
Proof. unfold lastn. rewrite length_skipn. lia. Qed.

Lemma tl_skipn k l : tl (skipn k l) = skipn (S k) l.
Proof.
  revert l. induction k as [|k IH]; intros [|a l]; try reflexivity.
  simpl. rewrite IH. destruct l; reflexivity.
Qed.

(** Appending to the last [maxlen] elements of [l] leaves the last
    [maxlen] elements of [l ++ [x]]. *)
Lemma deque_append_lastn x l :
  deque_append x (lastn maxlen l) = lastn maxlen (l ++ [x]).
Proof.
  destruct (Nat.lt_ge_cases (length l) maxlen) as [Hlt|Hge].
  - rewrite deque_append_room by (rewrite length_lastn; lia).
    unfold lastn. rewrite length_app. simpl.
    replace (length l - maxlen) with 0 by lia.
    replace (length l + 1 - maxlen) with 0 by lia.
    reflexivity.
  - rewrite deque_append_full by (rewrite length_lastn; lia).
    unfold lastn. rewrite length_app. simpl.
    rewrite tl_skipn.
    replace (length l + 1 - maxlen) with (S (length l - maxlen))
      by (unfold maxlen in *; lia).
    rewrite skipn_app.
    replace (S (length l - maxlen) - length l) with 0
      by (unfold maxlen in *; lia).
    reflexivity.
Qed.

Lemma lastn_nil n : lastn n (@nil A) = [].
Proof. reflexivity. Qed.

End Deque.

(** ** Ticks and runs *)

Lemma tick_ok (m : Layout_mode) (st : State) (tk : Tick) (s : MetricSample) :
  sample_of tk = Some s ->
  tick m st tk
  = mkState (record s (history st)) (log st ++ [LogFetched (stats_dict s)]).
Proof.
  intros Hs. unfold tick, callback, bind.
  destruct m.
  - rewrite (update_combined_graph_ok tk s st Hs). reflexivity.
  - rewrite (update_separate_graphs_ok tk s st Hs). reflexivity.
Qed.

Lemma tick_fail (m : Layout_mode) (st : State) (tk : Tick) :
  sample_of tk = None ->
  exists e, first_error (provider tk) = Some e /\
    tick m st tk = mkState (history st) (log st ++ [LogError e; LogNoData]).
Proof.
  intros Hs. unfold tick, callback, bind.
  destruct m.
  - destruct (update_combined_graph_fail tk st Hs) as (e & He & ->). eauto.
  - destruct (update_separate_graphs_fail tk st Hs) as (e & He & ->). eauto.
Qed.

(** The store after a tick, whatever the tick does. *)
Lemma tick_history (m : Layout_mode) (st : State) (tk : Tick) :
  history (tick m st tk)
  = match sample_of tk with
    | Some s => record s (history st)
    | None => history st
    end.
Proof.
  destruct (sample_of tk) as [s|] eqn:Hs.
  - rewrite (tick_ok m st tk s Hs). reflexivity.
  - destruct (tick_fail m st tk Hs) as (e & _ & ->). reflexivity.
Qed.

Example ex_one_tick :
  history (tick Separate state0 (ok_tick 10 5 50 "00:00:00"))
  = mkHistory [10%Q] [5%Q] [50%Q] ["00:00:00"].
Proof. vm_compute. reflexivity. Qed.

Lemma run_app (m : Layout_mode) (tks1 tks2 : list Tick) (st : State) :
  run m (tks1 ++ tks2) st = run m tks2 (run m tks1 st).
Proof. unfold run. apply fold_left_app. Qed.

Lemma recorded_app (tks1 tks2 : list Tick) :
  recorded (tks1 ++ tks2) = recorded tks1 ++ recorded tks2.
Proof. unfold recorded. apply omap_app. Qed.

(** After any run from the empty store, each sequence holds the last
    [maxlen] recorded values of its metric, oldest first. *)
Lemma run_history_lastn (m : Layout_mode) (tks : list Tick) :
  history (run m tks state0)
  = mkHistory (lastn maxlen (map ram_pct (recorded tks)))
              (lastn maxlen (map cpu_pct (recorded tks)))
              (lastn maxlen (map disk_pct (recorded tks)))
              (lastn maxlen (map timestamp (recorded tks))).
Proof.
  induction tks as [|tk tks IH] using rev_ind.
  - reflexivity.
  - rewrite run_app, recorded_app. simpl.
    rewrite tick_history, IH.
    unfold recorded at 5 6 7 8. simpl.
    destruct (sample_of tk) as [s|].
    + unfold record. simpl. rewrite !map_app. simpl.
      rewrite !deque_append_lastn. reflexivity.
    + rewrite !app_nil_r. reflexivity.
Qed.

Lemma map_lastn {A B} (f : A -> B) (n : nat) (l : list A) :
  lastn n (map f l) = map f (lastn n l).
Proof. unfold lastn. rewrite length_map. apply skipn_map. Qed.

Lemma length_recorded (tks : list Tick) : length (recorded tks) <= length tks.
Proof.
  induction tks as [|tk tks IH]; simpl; [lia|].
  unfold recorded in *. simpl. destruct (sample_of tk); simpl; lia.
Qed.

Lemma sample_of_tick_of (s : MetricSample) : sample_of (tick_of s) = Some s.
Proof. destruct s. reflexivity. Qed.

Lemma recorded_tick_of (l : list MetricSample) : recorded (map tick_of l) = l.
Proof.
  induction l as [|s l IH]; [reflexivity|].
  change (recorded (map tick_of (s :: l)))
    with (match sample_of (tick_of s) with
          | Some y => y :: recorded (map tick_of l)
          | None => recorded (map tick_of l)
          end).
  rewrite sample_of_tick_of, IH. reflexivity.
Qed.

(** Sampling fails exactly when one of the reads raises. *)
Lemma sample_of_None_iff (tk : Tick) :
  sample_of tk = None <-> exists e, first_error (provider tk) = Some e.
Proof.
  unfold sample_of, first_error.
  destruct (virtual_memory_percent (provider tk)) as [r|e].
  2:{ split; eauto. }
  destruct (cpu_percent (provider tk)) as [c|e].
  2:{ split; eauto. }
  destruct (disk_usage_percent (provider tk)) as [d|e].
  2:{ split; eauto. }
  split; [discriminate | intros [e [=]]].
Qed.

(** [get_system_stats] hands back the empty dict exactly when sampling
    fails. *)
Lemma get_system_stats_empty_iff (tk : Tick) (st : State) :
  fst (get_system_stats (provider tk) st) = Ok ∅ <-> sample_of tk = None.
Proof.
  destruct (sample_of tk) as [s|] eqn:Hs.
  - rewrite (get_system_stats_ok tk s st Hs). simpl.
    split; [|discriminate].
    intros He. assert (Hd : stats_dict s = ∅) by congruence.
    pose proof (stats_dict_truthy s) as Ht.
    rewrite Hd, dict_not_empty in Ht. discriminate.
  - destruct (get_system_stats_fail tk st Hs) as (e & _ & ->). simpl.
    split; reflexivity.
Qed.

(** ** The rolling window (C1, C2) *)

(** C1. After a run of more than 20 ticks of which more than 20 record a
    sample, started on the empty store, each of the four sequences has
    length exactly 20 and holds, oldest first, its component of the last 20
    recorded samples. *)
Theorem capacity_last_20_samples (m : Layout_mode) (tks : list Tick) :
  20 < length tks ->
  20 < length (recorded tks) ->
  let h := history (run m tks state0) in
  let last20 := lastn 20 (recorded tks) in
  (length (ram h) = 20 /\ length (cpu h) = 20 /\
   length (disk h) = 20 /\ length (time h) = 20) /\
  length last20 = 20 /\
  ram h = map ram_pct last20 /\
  cpu h = map cpu_pct last20 /\
  disk h = map disk_pct last20 /\
  time h = map timestamp last20.
Proof.
  intros _ Hrec h last20. subst h last20.
  rewrite run_history_lastn. simpl.
  unfold maxlen. rewrite !map_lastn, !length_map, length_lastn.
  repeat split; lia.
Qed.

Lemma capacity_last_20_samples_witness :
  let tks := map numbered_tick (seq 1 21) in
  let h := history (run Combined tks state0) in
  let last20 := lastn 20 (recorded tks) in
  (length (ram h) = 20 /\ length (cpu h) = 20 /\
   length (disk h) = 20 /\ length (time h) = 20) /\
  length last20 = 20 /\
  ram h = map ram_pct last20 /\
  cpu h = map cpu_pct last20 /\
  disk h = map disk_pct last20 /\
  time h = map timestamp last20.
Proof.
  apply (capacity_last_20_samples Combined (map numbered_tick (seq 1 21))).
  - simpl. lia.
  - vm_compute. lia.
Defined.

(** C2. On the empty store one recorded sample gives the one-element
    snapshot; 25 samples with RAM readings 1..25 leave [6..25] in the RAM
    sequence; and after samples S1..S20 the store holds S1..S20, while
    recording S21 leaves S2..S21: the oldest, and only the oldest, is gone. *)
Theorem scenario_fifo_eviction :
  history (tick Separate state0 (ok_tick 10 5 50 "00:00:00"))
    = mkHistory [10%Q] [5%Q] [50%Q] ["00:00:00"] /\
  (forall (c d : nat -> Q) (t : nat -> string),
     ram (history (run Separate
            (map (fun i => tick_of (sample_numbered c d t i)) (seq 1 25)) state0))
     = [6; 7; 8; 9; 10; 11; 12; 13; 14; 15;
        16; 17; 18; 19; 20; 21; 22; 23; 24; 25]%Q) /\
  (forall (smp : nat -> MetricSample),
     let after n := history (run Separate (map (fun i => tick_of (smp i)) (seq 1 n)) state0) in
     after 20 = mkHistory (map (fun i => ram_pct (smp i)) (seq 1 20))
                          (map (fun i => cpu_pct (smp i)) (seq 1 20))
                          (map (fun i => disk_pct (smp i)) (seq 1 20))
                          (map (fun i => timestamp (smp i)) (seq 1 20)) /\
     after 21 = mkHistory (map (fun i => ram_pct (smp i)) (seq 2 20))
                          (map (fun i => cpu_pct (smp i)) (seq 2 20))
                          (map (fun i => disk_pct (smp i)) (seq 2 20))
                          (map (fun i => timestamp (smp i)) (seq 2 20))).
Proof.
  split; [|split].
  - rewrite tick_history. reflexivity.
  - intros c d t. rewrite run_history_lastn.
    rewrite <- (map_map (sample_numbered c d t) tick_of), recorded_tick_of.
    reflexivity.
  - intros smp after. subst after. cbv beta.
    rewrite !run_history_lastn.
    rewrite <- !(map_map smp tick_of), !recorded_tick_of.
    split; reflexivity.
Qed.

(** ** Alignment of the four sequences (C3, C4) *)

Lemma record_aligned (s : MetricSample) (h : History) :
  aligned h -> aligned (record s h).
Proof.
  unfold aligned, record. intros (H1 & H2 & H3 & H4). simpl.
  rewrite !deque_append_length by (unfold maxlen; lia).
  unfold maxlen. lia.
Qed.

Lemma record_appended_one (s : MetricSample) (h : History) :
  aligned h -> appended_one s h (record s h).
Proof.
  unfold aligned, record, appended_one. intros (H1 & H2 & H3 & H4). simpl.
  destruct (Nat.eq_dec (length (time h)) 20) as [Hfull|Hroom].
  - exists 1. split; [lia|].
    rewrite !deque_append_full by (unfold maxlen; lia).
    repeat split; f_equal; destruct h as [[|? ?] [|? ?] [|? ?] [|? ?]]; reflexivity.
  - exists 0. split; [lia|].
    rewrite !deque_append_room by (unfold maxlen; lia).
    repeat split.
Qed.

(** C3, as the code has it.  Between ticks the four sequences of the store
    have one length, at most 20: it holds of the empty store, every whole
    tick preserves it, and so it holds after every run.  A tick that samples
    successfully appends exactly one element to each of the four sequences;
    a tick whose sampling fails leaves all four as they were. *)
Theorem history_lengths_aligned (m : Layout_mode) :
  aligned history0 /\
  (forall (st : State) (tk : Tick),
     aligned (history st) ->
     aligned (history (tick m st tk)) /\
     match sample_of tk with
     | Some s => appended_one s (history st) (history (tick m st tk))
     | None => history (tick m st tk) = history st
     end) /\
  (forall tks : list Tick, aligned (history (run m tks state0))).
Proof.
  assert (Hstep : forall st tk, aligned (history st) ->
                                aligned (history (tick m st tk))).
  { intros st tk Hal. rewrite tick_history.
    destruct (sample_of tk); [apply record_aligned|]; exact Hal. }
  split; [|split].
  - unfold aligned. simpl. lia.
  - intros st tk Hal. split; [apply Hstep; exact Hal|].
    rewrite tick_history.
    destruct (sample_of tk) as [s|]; [apply record_appended_one; exact Hal|reflexivity].
  - intros tks. induction tks as [|tk tks IH] using rev_ind.
    + unfold aligned. simpl. lia.
    + rewrite run_app. simpl. apply Hstep. exact IH.
Qed.

Lemma history_lengths_aligned_witness :
  let st := run Combined (map numbered_tick (seq 1 20)) state0 in
  let tk := numbered_tick 21 in
  aligned (history st) /\
  aligned (history (tick Combined st tk)) /\
  match sample_of tk with
  | Some s => appended_one s (history st) (history (tick Combined st tk))
  | None => history (tick Combined st tk) = history st
  end.
Proof.
  assert (Hal : aligned (history (run Combined (map numbered_tick (seq 1 20)) state0))).
  { rewrite run_history_lastn. unfold aligned. vm_compute. lia. }
  split; [exact Hal|].
  exact (proj1 (proj2 (history_lengths_aligned Combined))
           (run Combined (map numbered_tick (seq 1 20)) state0)
           (numbered_tick 21) Hal).
Defined.

(** The two parts of a callback, run one after the other, are the
    callback. *)
Lemma update_combined_graph_cut (tk : Tick) (st : State) :
  update_combined_graph tk st
  = (fetched <- update_combined_graph_through_ram tk;;
     update_combined_graph_after_ram tk fetched) st.
Proof.
  unfold update_combined_graph, update_combined_graph_through_ram,
    update_combined_graph_after_ram, bind.
  destruct (get_system_stats (provider tk) st) as [[d|e] st1]; [|reflexivity].
  destruct (dict_not d); [reflexivity|].
  unfold logging, subscript.
  destruct (d !! RAM_KEY); reflexivity.
Qed.

Lemma update_separate_graphs_cut (tk : Tick) (st : State) :
  update_separate_graphs tk st
  = (fetched <- update_separate_graphs_through_ram tk;;
     update_separate_graphs_after_ram tk fetched) st.
Proof.
  unfold update_separate_graphs, update_separate_graphs_through_ram,
    update_separate_graphs_after_ram, bind.
  destruct (get_system_stats (provider tk) st) as [[d|e] st1]; [|reflexivity].
  destruct (dict_not d); [reflexivity|].
  unfold logging, subscript.
  destruct (d !! RAM_KEY); reflexivity.
Qed.

(** C3 as stated fails: the four appends are four steps.  On the empty
    store, once a successful tick has appended to 'ram' and not yet to the
    others, the RAM sequence has one element and the other three none; the
    rest of the callback then completes the tick. *)
Lemma store_unaligned_inside_tick :
  let tk := ok_tick 10 5 50 "00:00:00" in
  let mid_c := snd (update_combined_graph_through_ram tk state0) in
  let mid_s := snd (update_separate_graphs_through_ram tk state0) in
  aligned (history state0) /\
  history mid_c = mkHistory [10%Q] [] [] [] /\
  history mid_s = mkHistory [10%Q] [] [] [] /\
  ~ aligned (history mid_c) /\
  ~ aligned (history mid_s) /\
  update_combined_graph_after_ram tk
    (Some (stats_dict (mkSample 10 5 50 "00:00:00"))) mid_c
    = update_combined_graph tk state0 /\
  update_separate_graphs_after_ram tk
    (Some (stats_dict (mkSample 10 5 50 "00:00:00"))) mid_s
    = update_separate_graphs tk state0.
Proof.
  split; [unfold aligned; simpl; lia|].
  split; [reflexivity|]. split; [reflexivity|].
  split; [intros (H & _); vm_compute in H; discriminate|].
  split; [intros (H & _); vm_compute in H; discriminate|].
  split; reflexivity.
Qed.

(** C4. When [get_system_stats] hands back the empty dict, the tick leaves
    the store exactly as it found it: the four sequences after the tick are
    the four sequences before it. *)
Theorem failed_tick_leaves_history (m : Layout_mode) (st : State) (tk : Tick) :
  fst (get_system_stats (provider tk) st) = Ok ∅ ->
  history (tick m st tk) = history st /\
  history (snd (update_combined_graph tk st)) = history st /\
  history (snd (update_separate_graphs tk st)) = history st.
Proof.
  intros Hfail. apply get_system_stats_empty_iff in Hfail.
  split; [|split].
  - destruct (tick_fail m st tk Hfail) as (e & _ & ->). reflexivity.
  - destruct (update_combined_graph_fail tk st Hfail) as (e & _ & ->). reflexivity.
  - destruct (update_separate_graphs_fail tk st Hfail) as (e & _ & ->). reflexivity.
Qed.

Lemma failed_tick_leaves_history_witness :
  let st := tick Separate state0 (ok_tick 10 5 50 "00:00:00") in
  let tk := failing_tick "00:00:05" in
  history (tick Separate st tk) = history st /\
  history (snd (update_combined_graph tk st)) = history st /\
  history (snd (update_separate_graphs tk st)) = history st.
Proof.
  apply (failed_tick_leaves_history Separate
           (tick Separate state0 (ok_tick 10 5 50 "00:00:00"))
           (failing_tick "00:00:05")).
  reflexivity.
Defined.

(** ** Range of the stored percentages (C5) *)

Lemma deque_append_Forall {A} (P : A -> Prop) (x : A) (d : list A) :
  P x -> Forall P d -> Forall P (deque_append x d).
Proof.
  intros Hx Hd. unfold deque_append.
  assert (Hall : Forall P (d ++ [x])).
  { apply Forall_app. split; [exact Hd | constructor; [exact Hx | constructor]]. }
  destruct (maxlen <? length (d ++ [x])); [|exact Hall].
  destruct (d ++ [x]); [constructor|].
  inversion Hall; assumption.
Qed.

Lemma last_deque_append {A} (x : A) (d : list A) :
  last (deque_append x d) = Some x.
Proof.
  unfold deque_append.
  destruct (Nat.ltb_spec maxlen (length (d ++ [x]))) as [Hlong|_].
  - destruct d as [|a d]; [unfold maxlen in Hlong; simpl in Hlong; lia|].
    simpl. apply last_snoc.
  - apply last_snoc.
Qed.

Lemma sample_in_range (tk : Tick) (s : MetricSample) :
  provider_in_range (provider tk) ->
  sample_of tk = Some s ->
  in_range (ram_pct s) /\ in_range (cpu_pct s) /\ in_range (disk_pct s).
Proof.
  unfold provider_in_range, sample_of. intros (Hr & Hc & Hd).
  destruct (virtual_memory_percent (provider tk)) as [r|]; [|discriminate].
  destruct (cpu_percent (provider tk)) as [c|]; [|discriminate].
  destruct (disk_usage_percent (provider tk)) as [d|]; [|discriminate].
  intros [= <-]. simpl. auto.
Qed.

Lemma tick_in_range (m : Layout_mode) (st : State) (tk : Tick) :
  provider_in_range (provider tk) ->
  history_in_range (history st) ->
  history_in_range (history (tick m st tk)).
Proof.
  intros Hp Hh. rewrite tick_history.
  destruct (sample_of tk) as [s|] eqn:Hs; [|exact Hh].
  destruct (sample_in_range tk s Hp Hs) as (Hr & Hc & Hd).
  destruct Hh as (Hhr & Hhc & Hhd).
  unfold history_in_range, record. simpl.
  repeat split; apply deque_append_Forall; assumption.
Qed.

(** C5, as the code has it.  A read that raises makes the sampling fail as
    a whole, and nothing of that tick is stored.  When the three reads
    return, the sampling succeeds whatever the values are, and each value is
    stored as returned: it is the newest element of its sequence after the
    tick.  So the stored percentages lie in [0,100] as long as every value
    the provider returned does. *)
Theorem stored_percentages_follow_provider (m : Layout_mode) :
  (forall (st : State) (tk : Tick) (e : exn),
     first_error (provider tk) = Some e ->
     fst (get_system_stats (provider tk) st) = Ok ∅ /\
     history (tick m st tk) = history st) /\
  (forall (st : State) (tk : Tick) (r c d : Q),
     virtual_memory_percent (provider tk) = Ok r ->
     cpu_percent (provider tk) = Ok c ->
     disk_usage_percent (provider tk) = Ok d ->
     fst (get_system_stats (provider tk) st) <> Ok ∅ /\
     last (ram (history (tick m st tk))) = Some r /\
     last (cpu (history (tick m st tk))) = Some c /\
     last (disk (history (tick m st tk))) = Some d /\
     last (time (history (tick m st tk))) = Some (now tk)) /\
  (forall tks : list Tick,
     Forall (fun tk => provider_in_range (provider tk)) tks ->
     history_in_range (history (run m tks state0))).
Proof.
  split; [|split].
  - intros st tk e He.
    assert (Hs : sample_of tk = None) by (apply sample_of_None_iff; eauto).
    split; [apply get_system_stats_empty_iff; exact Hs|].
    rewrite tick_history, Hs. reflexivity.
  - intros st tk r c d Hr Hc Hd.
    assert (Hs : sample_of tk = Some (mkSample r c d (now tk)))
      by (unfold sample_of; rewrite Hr, Hc, Hd; reflexivity).
    split.
    + intros Hempty. apply get_system_stats_empty_iff in Hempty. congruence.
    + rewrite tick_history, Hs. unfold record. simpl.
      rewrite !last_deque_append. repeat split.
  - intros tks Hall. induction tks as [|tk tks IH] using rev_ind.
    + repeat split; constructor.
    + apply Forall_app in Hall. destruct Hall as [Htks Htk].
      inversion Htk; subst.
      rewrite run_app. simpl. apply tick_in_range; [assumption|].
      apply IH. exact Htks.
Qed.

Lemma in_range_10_5_50 : in_range 10 /\ in_range 5 /\ in_range 50.
Proof. unfold in_range, Qle; simpl; lia. Qed.

Lemma stored_percentages_follow_provider_witness :
  let st := tick Combined state0 (ok_tick 10 5 50 "00:00:00") in
  (fst (get_system_stats (provider (failing_tick "00:00:05")) st) = Ok ∅ /\
   history (tick Combined st (failing_tick "00:00:05")) = history st) /\
  (fst (get_system_stats (provider (ok_tick 150 5 50 "00:00:10")) st) <> Ok ∅ /\
   last (ram (history (tick Combined st (ok_tick 150 5 50 "00:00:10")))) = Some 150%Q /\
   last (cpu (history (tick Combined st (ok_tick 150 5 50 "00:00:10")))) = Some 5%Q /\
   last (disk (history (tick Combined st (ok_tick 150 5 50 "00:00:10")))) = Some 50%Q /\
   last (time (history (tick Combined st (ok_tick 150 5 50 "00:00:10"))))
     = Some "00:00:10") /\
  history_in_range
    (history (run Combined
                [ok_tick 10 5 50 "00:00:00"; failing_tick "00:00:05"] state0)).
Proof.
  destruct (stored_percentages_follow_provider Combined) as (Hfail & Hstore & Hrange).
  split; [|split].
  - apply (Hfail (tick Combined state0 (ok_tick 10 5 50 "00:00:00"))
             (failing_tick "00:00:05") (ProviderError "cpu")).
    reflexivity.
  - apply (Hstore (tick Combined state0 (ok_tick 10 5 50 "00:00:00"))
             (ok_tick 150 5 50 "00:00:10") 150%Q 5%Q 50%Q); reflexivity.
  - apply (Hrange [ok_tick 10 5 50 "00:00:00"; failing_tick "00:00:05"]).
    destruct in_range_10_5_50 as (H10 & H5 & H50).
    constructor; [|constructor; [|constructor]];
      unfold provider_in_range; simpl;
      (split; [|split]); intros v Hv; inversion Hv; subst; assumption.
Defined.

(** C5 as stated fails: a RAM reading of 150 is neither rejected nor kept
    out of the store. *)
Lemma out_of_range_reading_is_stored :
  let tk := ok_tick 150 5 50 "00:00:00" in
  ~ in_range 150 /\
  fst (get_system_stats (provider tk) state0)
    = Ok (stats_dict (mkSample 150 5 50 "00:00:00")) /\
  dict_not (stats_dict (mkSample 150 5 50 "00:00:00")) = false /\
  ram (history (tick Combined state0 tk)) = [150%Q] /\
  ram (history (tick Separate state0 tk)) = [150%Q].
Proof.
  split; [|split; [|split; [|split]]].
  - unfold in_range, Qle. simpl. lia.
  - reflexivity.
  - apply stats_dict_truthy.
  - rewrite tick_history. reflexivity.
  - rewrite tick_history. reflexivity.
Qed.

(** ** The payload of a failing tick (C6) *)

(** C6, as the code has it.  On a tick whose sampling fails the callback
    returns the empty payload, one empty dict in combined mode and three in
    separate mode, whether or not the store holds earlier samples. *)
Theorem failed_tick_empty_payload (st : State) (tk : Tick) :
  fst (get_system_stats (provider tk) st) = Ok ∅ ->
  fst (update_combined_graph tk st) = Ok EmptyDict /\
  fst (update_separate_graphs tk st) = Ok (EmptyDict, EmptyDict, EmptyDict).
Proof.
  intros Hfail. apply get_system_stats_empty_iff in Hfail.
  destruct (update_combined_graph_fail tk st Hfail) as (e & _ & ->).
  destruct (update_separate_graphs_fail tk st Hfail) as (e' & _ & ->).
  split; reflexivity.
Qed.

Lemma failed_tick_empty_payload_witness :
  let st := tick Combined state0 (ok_tick 10 5 50 "00:00:00") in
  let tk := failing_tick "00:00:05" in
  fst (update_combined_graph tk st) = Ok EmptyDict /\
  fst (update_separate_graphs tk st) = Ok (EmptyDict, EmptyDict, EmptyDict).
Proof.
  apply (failed_tick_empty_payload
           (tick Combined state0 (ok_tick 10 5 50 "00:00:00"))
           (failing_tick "00:00:05")).
  reflexivity.
Defined.

(** C6 as stated fails: with one sample already stored, a failing tick
    returns the empty dict, not a figure of the stored history. *)
Lemma failed_tick_drops_previous_snapshot :
  let st := tick Combined state0 (ok_tick 10 5 50 "00:00:00") in
  let tk := failing_tick "00:00:05" in
  fst (get_system_stats (provider tk) st) = Ok ∅ /\
  history st = mkHistory [10%Q] [5%Q] [50%Q] ["00:00:00"] /\
  fst (update_combined_graph tk st) = Ok EmptyDict /\
  fst (update_combined_graph tk st) <> Ok (Fig (combined_figure (history st))).
Proof.
  split; [|split; [|split]].
  - reflexivity.
  - rewrite tick_history. reflexivity.
  - reflexivity.
  - discriminate.
Qed.

(** ** The two renderings (C7) *)

(** C7. On the same store and the same successful tick, the combined
    callback returns one figure with the three series RAM, CPU, Disk, each
    over the stored time sequence; the separate callback returns three
    figures of one series each, over that same time sequence. *)
Theorem renderings_share_time_axis (st : State) (tk : Tick) (s : MetricSample) :
  sample_of tk = Some s ->
  exists (h : History) (c r u d : Figure),
    history (snd (update_combined_graph tk st)) = h /\
    history (snd (update_separate_graphs tk st)) = h /\
    fst (update_combined_graph tk st) = Ok (Fig c) /\
    fst (update_separate_graphs tk st) = Ok (Fig r, Fig u, Fig d) /\
    map sc_name (data c) = [RAM_KEY; CPU_KEY; DISK_KEY] /\
    map sc_x (data c) = [time h; time h; time h] /\
    map sc_name (data r) = [RAM_KEY] /\ map sc_x (data r) = [time h] /\
    map sc_name (data u) = [CPU_KEY] /\ map sc_x (data u) = [time h] /\
    map sc_name (data d) = [DISK_KEY] /\ map sc_x (data d) = [time h] /\
    map sc_y (data c) = map sc_y (data r ++ data u ++ data d).
Proof.
  intros Hs.
  exists (record s (history st)),
    (combined_figure (record s (history st))),
    (ram_figure (record s (history st))),
    (cpu_figure (record s (history st))),
    (disk_figure (record s (history st))).
  rewrite (update_combined_graph_ok tk s st Hs).
  rewrite (update_separate_graphs_ok tk s st Hs).
  repeat split.
Qed.

Lemma renderings_share_time_axis_witness :
  exists (h : History) (c r u d : Figure),
    history (snd (update_combined_graph (ok_tick 10 5 50 "00:00:00") state0)) = h /\
    history (snd (update_separate_graphs (ok_tick 10 5 50 "00:00:00") state0)) = h /\
    fst (update_combined_graph (ok_tick 10 5 50 "00:00:00") state0) = Ok (Fig c) /\
    fst (update_separate_graphs (ok_tick 10 5 50 "00:00:00") state0)
      = Ok (Fig r, Fig u, Fig d) /\
    map sc_name (data c) = [RAM_KEY; CPU_KEY; DISK_KEY] /\
    map sc_x (data c) = [time h; time h; time h] /\
    map sc_name (data r) = [RAM_KEY] /\ map sc_x (data r) = [time h] /\
    map sc_name (data u) = [CPU_KEY] /\ map sc_x (data u) = [time h] /\
    map sc_name (data d) = [DISK_KEY] /\ map sc_x (data d) = [time h] /\
    map sc_y (data c) = map sc_y (data r ++ data u ++ data d).
Proof.
  apply (renderings_share_time_axis state0 (ok_tick 10 5 50 "00:00:00")
           (mkSample 10 5 50 "00:00:00")).
  reflexivity.
Defined.

(** ** The mode selector (C8) *)

(** C8. The combined layout is installed exactly when the first
    command-line argument is "one"; every other argument, and no argument
    at all, installs the separate layout, and without an argument [mode] is
    "multiple". *)
Theorem mode_selector (argv : list string) :
  (app_layout argv = Combined <-> nth_error argv 1 = Some "one") /\
  (app_layout argv = Separate <-> nth_error argv 1 <> Some "one") /\
  (length argv <= 1 -> mode argv = "multiple" /\ app_layout argv = Separate).
Proof.
  destruct argv as [|a0 [|a1 rest]].
  - unfold app_layout, mode. simpl.
    repeat split; intros; try discriminate; congruence.
  - unfold app_layout, mode. simpl.
    repeat split; intros; try discriminate; congruence.
  - unfold app_layout, mode. simpl.
    destruct (String.eqb_spec a1 "one") as [->|Hne].
    + repeat split; intros; try discriminate; try congruence; lia.
    + repeat split; intros; try discriminate; try congruence; lia.
Qed.

Lemma mode_selector_witness :
  (app_layout ["main.py"] = Combined <-> nth_error ["main.py"] 1 = Some "one") /\
  (app_layout ["main.py"] = Separate <-> nth_error ["main.py"] 1 <> Some "one") /\
  mode ["main.py"] = "multiple" /\ app_layout ["main.py"] = Separate.
Proof.
  destruct (mode_selector ["main.py"]) as (H1 & H2 & H3).
  split; [exact H1|]. split; [exact H2|].
  apply H3. simpl. lia.
Defined.

Example mode_one : app_layout ["main.py"; "one"] = Combined.
Proof. reflexivity. Qed.

Example mode_other : app_layout ["main.py"; "ONE"; "one"] = Separate.
Proof. reflexivity. Qed.

(** ** The two callbacks and the store (C9) *)

(** C9. On the same tick (the same sampler outcome and the same timestamp)
    the combined and the separate callback leave the same state behind, the
    store and the log alike; so do whole runs in the two modes. *)
Theorem modes_mutate_alike (st : State) (tk : Tick) (tks : list Tick) :
  snd (update_combined_graph tk st) = snd (update_separate_graphs tk st) /\
  history (tick Combined st tk) = history (tick Separate st tk) /\
  run Combined tks st = run Separate tks st.
Proof.
  assert (Htick : forall st' tk', tick Combined st' tk' = tick Separate st' tk').
  { intros st' tk'. destruct (sample_of tk') as [s|] eqn:Hs.
    - rewrite !(tick_ok _ st' tk' s Hs). reflexivity.
    - destruct (tick_fail Combined st' tk' Hs) as (e & He & ->).
      destruct (tick_fail Separate st' tk' Hs) as (e' & He' & ->).
      congruence. }
  split; [|split].
  - destruct (sample_of tk) as [s|] eqn:Hs.
    + rewrite (update_combined_graph_ok tk s st Hs).
      rewrite (update_separate_graphs_ok tk s st Hs). reflexivity.
    + destruct (update_combined_graph_fail tk st Hs) as (e & He & ->).
      destruct (update_separate_graphs_fail tk st Hs) as (e' & He' & ->).
      simpl. congruence.
  - rewrite Htick. reflexivity.
  - revert st. induction tks as [|tk' tks IH]; intros st; [reflexivity|].
    simpl. rewrite Htick. apply IH.
Qed.

(** ** Totality of the sampler (C10) *)

(** C10. Whatever the three reads do, [get_system_stats] returns and does
    not raise.  When all three reads return, the dict has exactly the keys
    'RAM Usage (%)', 'CPU Usage (%)' and 'Disk Usage (%)'.  When a read
    raises, the dict is empty, and both callbacks then return through their
    "No data fetched" branch without raising. *)
Theorem get_system_stats_total (p : Provider) (st : State) (now : string) (n : nat) :
  exists (d : gmap string Q) (st' : State),
    get_system_stats p st = (Ok d, st') /\
    history st' = history st /\
    match first_error p with
    | None =>
        dom d = ({[RAM_KEY; CPU_KEY; DISK_KEY]} : gset string) /\
        dict_not d = false /\ log st' = log st
    | Some e =>
        d = ∅ /\ dict_not d = true /\ log st' = log st ++ [LogError e] /\
        update_combined_graph (mkTick p now n) st
          = (Ok EmptyDict, mkState (history st) (log st' ++ [LogNoData])) /\
        update_separate_graphs (mkTick p now n) st
          = (Ok (EmptyDict, EmptyDict, EmptyDict),
             mkState (history st) (log st' ++ [LogNoData]))
    end.
Proof.
  destruct (sample_of (mkTick p now n)) as [s|] eqn:Hs.
  - pose proof (get_system_stats_ok _ s st Hs) as Hg. simpl in Hg.
    exists (stats_dict s), st. split; [exact Hg|]. split; [reflexivity|].
    destruct (first_error p) as [e|] eqn:He.
    + assert (Hn : sample_of (mkTick p now n) = None)
        by (apply sample_of_None_iff; simpl; eauto).
      congruence.
    + split; [apply stats_dict_dom|]. split; [apply stats_dict_truthy|reflexivity].
  - destruct (get_system_stats_fail _ st Hs) as (e & He & Hg).
    destruct (update_combined_graph_fail _ st Hs) as (e1 & He1 & Hc).
    destruct (update_separate_graphs_fail _ st Hs) as (e2 & He2 & Hsep).
    simpl in He, Hg, He1, He2.
    exists ∅, (mkState (history st) (log st ++ [LogError e])).
    split; [exact Hg|]. split; [reflexivity|].
    rewrite He. split; [reflexivity|]. split; [apply dict_not_empty|].
    split; [reflexivity|]. simpl.
    rewrite <- app_assoc. simpl.
    split; [rewrite Hc|rewrite Hsep]; congruence.
Qed.

(** * Further properties of the callbacks *)

(** ** Runs from any store *)

Lemma tick_history_step (m : Layout_mode) (st : State) (tk : Tick) :
  history (tick m st tk) = history_step (history st) tk.
Proof. unfold history_step. apply tick_history. Qed.

Lemma run_history_fold (m : Layout_mode) (tks : list Tick) (st : State) :
  history (run m tks st) = fold_left history_step tks (history st).
Proof.
  revert st. induction tks as [|tk tks IH]; intros st; [reflexivity|].
  simpl. rewrite <- (tick_history_step m). apply IH.
Qed.

Lemma lastn_short {A} (n : nat) (l : list A) : length l <= n -> lastn n l = l.
Proof.
  intros Hlen. unfold lastn.
  replace (length l - n) with 0 by lia. reflexivity.
Qed.

Lemma lastn_app_long {A} (n : nat) (d l : list A) :
  n <= length l -> lastn n (d ++ l) = lastn n l.
Proof.
  intros Hlen. unfold lastn. rewrite length_app, skipn_app.
  rewrite skipn_all2 by lia. simpl. f_equal. lia.
Qed.

(** From a store whose sequences are within capacity, a run leaves in each
    sequence the last [maxlen] of what was there followed by what the run
    recorded. *)
Lemma run_history_lastn_from (m : Layout_mode) (tks : list Tick) (st : State) :
  aligned (history st) ->
  history (run m tks st)
  = mkHistory
      (lastn maxlen (ram (history st) ++ map ram_pct (recorded tks)))
      (lastn maxlen (cpu (history st) ++ map cpu_pct (recorded tks)))
      (lastn maxlen (disk (history st) ++ map disk_pct (recorded tks)))
      (lastn maxlen (time (history st) ++ map timestamp (recorded tks))).
Proof.
  intros (H1 & H2 & H3 & H4).
  induction tks as [|tk tks IH] using rev_ind.
  - simpl. rewrite !app_nil_r.
    rewrite !lastn_short by (unfold maxlen; lia).
    destruct (history st); reflexivity.
  - rewrite run_app, recorded_app. simpl.
    rewrite tick_history, IH.
    unfold recorded at 5 6 7 8. simpl.
    destruct (sample_of tk) as [s|].
    + unfold record. simpl. rewrite !map_app. simpl.
      rewrite !deque_append_lastn, <- !app_assoc. reflexivity.
    + rewrite !app_nil_r. reflexivity.
Qed.

(** X1. Neither callback ever raises: for every behaviour of the three
    reads and every state, the combined and the separate callback return a
    value. *)
Theorem callbacks_never_raise (m : Layout_mode) (tk : Tick) (st : State) :
  (exists p, fst (update_combined_graph tk st) = Ok p) /\
  (exists p, fst (update_separate_graphs tk st) = Ok p) /\
  (exists r, fst (callback m tk st) = Ok r).
Proof.
  destruct (sample_of tk) as [s|] eqn:Hs.
  - pose proof (update_combined_graph_ok tk s st Hs) as Hc.
    pose proof (update_separate_graphs_ok tk s st Hs) as Hp.
    split; [rewrite Hc; eauto|]. split; [rewrite Hp; eauto|].
    unfold callback, bind. destruct m; [rewrite Hc|rewrite Hp]; simpl; eauto.
  - destruct (update_combined_graph_fail tk st Hs) as (e & _ & Hc).
    destruct (update_separate_graphs_fail tk st Hs) as (e' & _ & Hp).
    split; [rewrite Hc; eauto|]. split; [rewrite Hp; eauto|].
    unfold callback, bind. destruct m; [rewrite Hc|rewrite Hp]; simpl; eauto.
Qed.

(** X2. The log is append-only.  A tick that samples successfully writes
    one record, the fetched dict; a tick whose sampling fails writes two,
    the error of the first read that raised (memory before CPU before disk)
    and then "No data fetched".  So a run adds one record per recorded
    sample and two per failed tick. *)
Theorem log_records_per_tick (m : Layout_mode) (st : State) (tk : Tick)
    (tks : list Tick) :
  ((exists s, sample_of tk = Some s /\
      log (tick m st tk) = log st ++ [LogFetched (stats_dict s)]) \/
   (exists e, first_error (provider tk) = Some e /\
      log (tick m st tk) = log st ++ [LogError e; LogNoData])) /\
  (exists added, log (run m tks st) = log st ++ added /\
      length added
      = length (recorded tks) + 2 * (length tks - length (recorded tks))).
Proof.
  split.
  - destruct (sample_of tk) as [s|] eqn:Hs.
    + left. exists s. rewrite (tick_ok m st tk s Hs). auto.
    + right. destruct (tick_fail m st tk Hs) as (e & He & ->). eauto.
  - revert st. induction tks as [|tk' tks IH]; intros st.
    + exists []. rewrite app_nil_r. auto.
    + change (run m (tk' :: tks) st) with (run m tks (tick m st tk')).
      destruct (IH (tick m st tk')) as (added & Hlog & Hlen).
      pose proof (length_recorded tks) as Hle.
      destruct (sample_of tk') as [s|] eqn:Hs.
      * assert (Hrec : recorded (tk' :: tks) = s :: recorded tks)
          by (unfold recorded; simpl; rewrite Hs; reflexivity).
        rewrite Hrec, Hlog, (tick_ok m st tk' s Hs).
        exists (LogFetched (stats_dict s) :: added).
        split; [simpl; rewrite <- app_assoc; reflexivity|].
        simpl. lia.
      * assert (Hrec : recorded (tk' :: tks) = recorded tks)
          by (unfold recorded; simpl; rewrite Hs; reflexivity).
        destruct (tick_fail m st tk' Hs) as (e & _ & Ht).
        rewrite Hrec, Hlog, Ht.
        exists (LogError e :: LogNoData :: added).
        split; [simpl; rewrite <- app_assoc; reflexivity|].
        simpl. lia.
Qed.

(** X3. After any run from the empty store the four sequences are index
    aligned: each has as many elements as samples were recorded, capped at
    20, and position [i] of all four holds the components of one and the
    same sample, the [i]-th of the last 20 recorded. *)
Theorem history_index_aligned (m : Layout_mode) (tks : list Tick) (i : nat) :
  let h := history (run m tks state0) in
  let last20 := lastn 20 (recorded tks) in
  length (time h) = Nat.min 20 (length (recorded tks)) /\
  nth_error (ram h) i = option_map ram_pct (nth_error last20 i) /\
  nth_error (cpu h) i = option_map cpu_pct (nth_error last20 i) /\
  nth_error (disk h) i = option_map disk_pct (nth_error last20 i) /\
  nth_error (time h) i = option_map timestamp (nth_error last20 i).
Proof.
  intros h last20. subst h last20.
  rewrite run_history_lastn. unfold maxlen. simpl.
  rewrite !map_lastn, length_map, length_lastn, !nth_error_map.
  repeat split.
Qed.

(** X4. Failed ticks are invisible to the store: from any state, a run
    leaves the same history as the run of its successful ticks alone. *)
Theorem failed_ticks_invisible (m : Layout_mode) (tks : list Tick) (st : State) :
  history (run m tks st) = history (run m (List.filter succeeded tks) st).
Proof.
  rewrite !run_history_fold. generalize (history st) as h.
  induction tks as [|tk tks IH]; intros h; [reflexivity|].
  simpl. unfold succeeded at 1, history_step at 2.
  destruct (sample_of tk) as [s|] eqn:Hs.
  - simpl. unfold history_step at 3. rewrite Hs. apply IH.
  - apply IH.
Qed.

(** X5. Twenty recorded samples flush the store: from any store whose four
    sequences have one length of at most 20, a run that records at least 20
    samples ends in the history the same run gives on the empty store. *)
Theorem twenty_samples_flush_store (m : Layout_mode) (tks : list Tick) (st : State) :
  aligned (history st) ->
  20 <= length (recorded tks) ->
  history (run m tks st) = history (run m tks state0).
Proof.
  intros Hal Hlen.
  rewrite (run_history_lastn_from m tks st Hal), run_history_lastn.
  rewrite !lastn_app_long by (rewrite length_map; unfold maxlen; lia).
  reflexivity.
Qed.

Lemma twenty_samples_flush_store_witness :
  let st := tick Combined state0 (ok_tick 10 5 50 "00:00:00") in
  let tks := map numbered_tick (seq 1 20) in
  history (run Separate tks st) = history (run Separate tks state0).
Proof.
  apply (twenty_samples_flush_store Separate (map numbered_tick (seq 1 20))
           (tick Combined state0 (ok_tick 10 5 50 "00:00:00"))).
  - rewrite tick_history. unfold aligned. simpl. lia.
  - vm_compute. lia.
Defined.

(** X6. The store only grows until it is full: from a store whose four
    sequences have one length of at most 20, each sequence after a run has
    the old length plus the number of recorded samples, capped at 20. *)
Theorem history_length_after_run (m : Layout_mode) (tks : list Tick) (st : State) :
  aligned (history st) ->
  let h := history st in
  let h' := history (run m tks st) in
  length (ram h') = Nat.min 20 (length (ram h) + length (recorded tks)) /\
  length (cpu h') = Nat.min 20 (length (cpu h) + length (recorded tks)) /\
  length (disk h') = Nat.min 20 (length (disk h) + length (recorded tks)) /\
  length (time h') = Nat.min 20 (length (time h) + length (recorded tks)).
Proof.
  intros Hal h h'. subst h h'.
  rewrite (run_history_lastn_from m tks st Hal). simpl. unfold maxlen.
  rewrite !length_lastn, !length_app, !length_map.
  repeat split.
Qed.

Lemma history_length_after_run_witness :
  let st := run Combined (map numbered_tick (seq 1 18)) state0 in
  let tks := [numbered_tick 19; failing_tick "00:00:05";
              numbered_tick 20; numbered_tick 21] in
  let h := history st in
  let h' := history (run Combined tks st) in
  length (ram h') = Nat.min 20 (length (ram h) + length (recorded tks)) /\
  length (cpu h') = Nat.min 20 (length (cpu h) + length (recorded tks)) /\
  length (disk h') = Nat.min 20 (length (disk h) + length (recorded tks)) /\
  length (time h') = Nat.min 20 (length (time h) + length (recorded tks)).
Proof.
  apply (history_length_after_run Combined
           [numbered_tick 19; failing_tick "00:00:05";
            numbered_tick 20; numbered_tick 21]
           (run Combined (map numbered_tick (seq 1 18)) state0)).
  rewrite run_history_lastn. unfold aligned. vm_compute. lia.
Defined.

(** ** What a tick hands to the graphs *)

Lemma run_aligned (m : Layout_mode) (tks : list Tick) (st : State) :
  aligned (history st) -> aligned (history (run m tks st)).
Proof.
  rewrite run_history_fold. generalize (history st) as h.
  induction tks as [|tk tks IH]; intros h Hal; [exact Hal|].
  simpl. apply IH. unfold history_step.
  destruct (sample_of tk); [apply record_aligned|]; exact Hal.
Qed.

Lemma aligned_history0 : aligned history0.
Proof. unfold aligned. simpl. lia. Qed.

(** X7. A successful tick shows the reading it has just taken: in the
    store it leaves, the last element of each sequence is the component of
    the current sample (the clock string for the time sequence), and the
    figures both callbacks return are drawn from that store, not from the
    one the tick found. *)
Theorem newest_sample_is_last (m : Layout_mode) (st : State) (tk : Tick)
    (s : MetricSample) :
  sample_of tk = Some s ->
  let h' := history (tick m st tk) in
  last (ram h') = Some (ram_pct s) /\
  last (cpu h') = Some (cpu_pct s) /\
  last (disk h') = Some (disk_pct s) /\
  last (time h') = Some (now tk) /\
  fst (update_combined_graph tk st) = Ok (Fig (combined_figure h')) /\
  fst (update_separate_graphs tk st)
    = Ok (Fig (ram_figure h'), Fig (cpu_figure h'), Fig (disk_figure h')).
Proof.
  intros Hs h'. subst h'.
  rewrite (tick_ok m st tk s Hs).
  rewrite (update_combined_graph_ok tk s st Hs).
  rewrite (update_separate_graphs_ok tk s st Hs).
  rewrite <- (sample_of_timestamp tk s Hs).
  unfold record. simpl.
  rewrite !last_deque_append. repeat split.
Qed.

Lemma newest_sample_is_last_witness :
  let st := run Combined (map numbered_tick (seq 1 20)) state0 in
  let tk := ok_tick 10 5 50 "00:00:00" in
  let h' := history (tick Combined st tk) in
  last (ram h') = Some 10%Q /\
  last (cpu h') = Some 5%Q /\
  last (disk h') = Some 50%Q /\
  last (time h') = Some "00:00:00" /\
  fst (update_combined_graph tk st) = Ok (Fig (combined_figure h')) /\
  fst (update_separate_graphs tk st)
    = Ok (Fig (ram_figure h'), Fig (cpu_figure h'), Fig (disk_figure h')).
Proof.
  apply (newest_sample_is_last Combined
           (run Combined (map numbered_tick (seq 1 20)) state0)
           (ok_tick 10 5 50 "00:00:00")
           (mkSample 10 5 50 "00:00:00")).
  reflexivity.
Defined.

Lemma figures_well_formed (h : History) :
  aligned h ->
  Forall well_formed_series (data (combined_figure h)) /\
  Forall well_formed_series
    (data (ram_figure h) ++ data (cpu_figure h) ++ data (disk_figure h)).
Proof.
  unfold aligned, well_formed_series. intros (H1 & H2 & H3 & H4).
  split; simpl;
    repeat (apply List.Forall_cons; [simpl; lia|]); apply List.Forall_nil.
Qed.

(** X8. At every state a run from the empty store can reach, the callback
    of either mode returns without raising, and every series it returns
    can be drawn: it has as many x values as y values, and at most 20. *)
Theorem returned_series_well_formed (m : Layout_mode) (tks : list Tick) (tk : Tick) :
  match fst (callback m tk (run m tks state0)) with
  | Ok r => Forall well_formed_series (all_series r)
  | Raise _ => False
  end.
Proof.
  pose proof (run_aligned m tks state0 aligned_history0) as Hal.
  set (st := run m tks state0) in *.
  unfold callback, bind.
  destruct (sample_of tk) as [s|] eqn:Hs.
  - pose proof (record_aligned s (history st) Hal) as Hal'.
    destruct (figures_well_formed _ Hal') as [Hc Hp].
    destruct m.
    + rewrite (update_combined_graph_ok tk s st Hs). exact Hc.
    + rewrite (update_separate_graphs_ok tk s st Hs). exact Hp.
  - destruct m.
    + destruct (update_combined_graph_fail tk st Hs) as (e & _ & ->). constructor.
    + destruct (update_separate_graphs_fail tk st Hs) as (e & _ & ->). constructor.
Qed.

(** ** The dict of [get_system_stats] *)

(** X9. When all three reads return, [get_system_stats] leaves state and
    log untouched and returns a dict that maps 'RAM Usage (%)' to the memory
    reading, 'CPU Usage (%)' to the CPU reading, 'Disk Usage (%)' to the
    disk reading and has no other key: subscripting it with any other key
    raises [KeyError] for that key. *)
Theorem stats_dict_contents (tk : Tick) (s : MetricSample) (st : State) :
  sample_of tk = Some s ->
  exists d : gmap string Q,
    get_system_stats (provider tk) st = (Ok d, st) /\
    virtual_memory_percent (provider tk) = Ok (ram_pct s) /\
    cpu_percent (provider tk) = Ok (cpu_pct s) /\
    disk_usage_percent (provider tk) = Ok (disk_pct s) /\
    (forall k : string,
       d !! k = if String.eqb k RAM_KEY then Some (ram_pct s)
                else if String.eqb k CPU_KEY then Some (cpu_pct s)
                else if String.eqb k DISK_KEY then Some (disk_pct s)
                else None) /\
    (forall (k : string) (st' : State),
       k <> RAM_KEY -> k <> CPU_KEY -> k <> DISK_KEY ->
       subscript d k st' = (Raise (KeyError k), st')).
Proof.
  intros Hs. exists (stats_dict s).
  assert (Hlookup : forall k : string,
    stats_dict s !! k = if String.eqb k RAM_KEY then Some (ram_pct s)
                        else if String.eqb k CPU_KEY then Some (cpu_pct s)
                        else if String.eqb k DISK_KEY then Some (disk_pct s)
                        else None).
  { intros k. unfold stats_dict.
    destruct (String.eqb_spec k RAM_KEY) as [->|Hr]; [apply lookup_insert_eq|].
    rewrite lookup_insert_ne by congruence.
    destruct (String.eqb_spec k CPU_KEY) as [->|Hc]; [apply lookup_insert_eq|].
    rewrite lookup_insert_ne by congruence.
    destruct (String.eqb_spec k DISK_KEY) as [->|Hd]; [apply lookup_insert_eq|].
    rewrite lookup_insert_ne by congruence. apply lookup_empty. }
  split; [apply get_system_stats_ok; exact Hs|].
  assert (Hreads : virtual_memory_percent (provider tk) = Ok (ram_pct s) /\
                   cpu_percent (provider tk) = Ok (cpu_pct s) /\
                   disk_usage_percent (provider tk) = Ok (disk_pct s)).
  { unfold sample_of in Hs.
    destruct (virtual_memory_percent (provider tk)); [|discriminate].
    destruct (cpu_percent (provider tk)); [|discriminate].
    destruct (disk_usage_percent (provider tk)); [|discriminate].
    injection Hs as <-. auto. }
  destruct Hreads as (Hm & Hc & Hd).
  repeat (split; [assumption|]).
  intros k st' Hr Hc' Hd'. unfold subscript. rewrite Hlookup.
  destruct (String.eqb_spec k RAM_KEY); [contradiction|].
  destruct (String.eqb_spec k CPU_KEY); [contradiction|].
  destruct (String.eqb_spec k DISK_KEY); [contradiction|].
  reflexivity.
Qed.

Lemma stats_dict_contents_witness :
  exists d : gmap string Q,
    get_system_stats (provider (ok_tick 10 5 50 "00:00:00")) state0
      = (Ok d, state0) /\
    virtual_memory_percent (provider (ok_tick 10 5 50 "00:00:00")) = Ok 10%Q /\
    cpu_percent (provider (ok_tick 10 5 50 "00:00:00")) = Ok 5%Q /\
    disk_usage_percent (provider (ok_tick 10 5 50 "00:00:00")) = Ok 50%Q /\
    (forall k : string,
       d !! k = if String.eqb k RAM_KEY then Some 10%Q
                else if String.eqb k CPU_KEY then Some 5%Q
                else if String.eqb k DISK_KEY then Some 50%Q
                else None) /\
    (forall (k : string) (st' : State),
       k <> RAM_KEY -> k <> CPU_KEY -> k <> DISK_KEY ->
       subscript d k st' = (Raise (KeyError k), st')).
Proof.
  apply (stats_dict_contents (ok_tick 10 5 50 "00:00:00")
           (mkSample 10 5 50 "00:00:00") state0).
  reflexivity.
Defined.

(** ** Layout and callback wiring *)

(** X10. In both modes the callback is wired to the layout it is installed
    with: its outputs are the 'figure' properties of exactly the graphs of
    the layout, in layout order; its one input is 'n_intervals' of the
    interval component, which the layout holds with a period of 5000 ms;
    no component id occurs twice; and the callback always returns as many
    values as it declares outputs. *)
Theorem callback_wired_to_layout (argv : list string) (tk : Tick) (st : State) :
  let m := app_layout argv in
  map component_id (callback_outputs m) = graph_ids (layout_children m) /\
  Forall (fun o => component_property o = "figure") (callback_outputs m) /\
  callback_inputs m = [mkDependency "interval-component" "n_intervals"] /\
  In (Interval "interval-component" 5000 0) (layout_children m) /\
  List.NoDup (component_ids (layout_children m)) /\
  match fst (callback m tk st) with
  | Ok r => length (returned_values r) = length (callback_outputs m)
  | Raise _ => False
  end.
Proof.
  intros m. subst m.
  assert (Hret : forall m, match fst (callback m tk st) with
                           | Ok r => length (returned_values r)
                                     = length (callback_outputs m)
                           | Raise _ => False
                           end).
  { intros m. unfold callback, bind.
    destruct (sample_of tk) as [s|] eqn:Hs.
    - destruct m.
      + rewrite (update_combined_graph_ok tk s st Hs). reflexivity.
      + rewrite (update_separate_graphs_ok tk s st Hs). reflexivity.
    - destruct m.
      + destruct (update_combined_graph_fail tk st Hs) as (e & _ & ->). reflexivity.
      + destruct (update_separate_graphs_fail tk st Hs) as (e & _ & ->). reflexivity. }
  specialize (Hret (app_layout argv)).
  destruct (app_layout argv).
  - split; [reflexivity|].
    split; [repeat (apply List.Forall_cons; [reflexivity|]); apply List.Forall_nil|].
    split; [reflexivity|].
    split; [simpl; auto|].
    split; [|exact Hret].
    simpl. repeat (apply List.NoDup_cons; [simpl; intuition discriminate|]).
    apply List.NoDup_nil.
  - split; [reflexivity|].
    split; [repeat (apply List.Forall_cons; [reflexivity|]); apply List.Forall_nil|].
    split; [reflexivity|].
    split; [simpl; auto 10|].
    split; [|exact Hret].
    simpl. repeat (apply List.NoDup_cons; [simpl; intuition discriminate|]).
    apply List.NoDup_nil.
Qed.

(** X11. Each graph is sent its own metric.  After a successful tick, in
    separate mode 'ram-usage-graph', 'cpu-usage-graph' and
    'disk-usage-graph' receive the figures whose single series plots the
    stored RAM, CPU and disk sequence respectively against the stored time
    sequence; in combined mode 'combined-graph' receives the one figure with
    those three series in that order.  After a failed tick every graph
    receives the empty dict. *)
Theorem graphs_receive_own_metric (st : State) (tk : Tick) :
  let h' := history_step (history st) tk in
  let series := fun y name => mkScatter (time h') y "lines+markers" name in
  exists rc rs,
    fst (callback Combined tk st) = Ok rc /\
    fst (callback Separate tk st) = Ok rs /\
    if succeeded tk then
      map (fun u => (fst u, payload_series (snd u))) (graph_updates Combined rc)
        = [("combined-graph", [series (ram h') RAM_KEY;
                               series (cpu h') CPU_KEY;
                               series (disk h') DISK_KEY])] /\
      map (fun u => (fst u, payload_series (snd u))) (graph_updates Separate rs)
        = [("ram-usage-graph", [series (ram h') RAM_KEY]);
           ("cpu-usage-graph", [series (cpu h') CPU_KEY]);
           ("disk-usage-graph", [series (disk h') DISK_KEY])]
    else
      graph_updates Combined rc = [("combined-graph", EmptyDict)] /\
      graph_updates Separate rs = [("ram-usage-graph", EmptyDict);
                                   ("cpu-usage-graph", EmptyDict);
                                   ("disk-usage-graph", EmptyDict)].
Proof.
  intros h' series. subst h' series.
  unfold history_step, succeeded, callback, bind.
  destruct (sample_of tk) as [s|] eqn:Hs.
  - rewrite (update_combined_graph_ok tk s st Hs).
    rewrite (update_separate_graphs_ok tk s st Hs).
    eexists _, _. split; [reflexivity|]. split; [reflexivity|].
    split; reflexivity.
  - destruct (update_combined_graph_fail tk st Hs) as (e & _ & ->).
    destruct (update_separate_graphs_fail tk st Hs) as (e' & _ & ->).
    eexists _, _. split; [reflexivity|]. split; [reflexivity|].
    split; reflexivity.
Qed.
